(** * markupr demo GIF generator: a shallow embedding of
      [assets/generate_demo_gif.py] and the properties of its frame script.

    The script renders a fixed terminal animation with Pillow and saves it
    as a looping GIF.  Pillow itself is not part of the repository, so its
    values are represented symbolically: an image is the canvas it was
    created from together with the drawing calls applied to it, and the
    quantise/convert calls wrap such a value.  What Pillow alone decides
    (whether a font file loads, the pixel width of a piece of text, the
    size in bytes of an encoded file) is a [Variable] of the section. *)

From Stdlib Require Import QArith.
From stdpp Require Import gmap strings list sorting.

Open Scope Z_scope.

(** ** Python strings and ranges *)

Module Py.

(** A Python [str] is a sequence of Unicode code points. *)
Abbreviation str := (list N) (only parsing).

(** An ASCII literal, one code point per character. *)
Definition lit (s : string) : str :=
  map Ascii.N_of_ascii (String.list_ascii_of_string s).

Definition len (s : str) : Z := Z.of_nat (length s).

(** [s[i]]: negative indices count from the end, anything outside
    [-len, len) raises [IndexError] (here [None]). *)
Definition index (s : str) (i : Z) : option N :=
  if decide (0 <= i < len s) then s !! Z.to_nat i
  else if decide (- len s <= i < 0) then s !! Z.to_nat (len s + i)
  else None.

(** [s[:k]]: a negative bound counts from the end, and bounds are
    clamped to the string. *)
Definition slice_to (s : str) (k : Z) : str :=
  if decide (0 <= k) then take (Z.to_nat k) s
  else take (Z.to_nat (len s + k)) s.

(** [s * n] *)
Definition repeat (s : str) (n : Z) : str :=
  mjoin (replicate (Z.to_nat n) s).

(** [range(start, stop)] *)
Definition range (start stop : Z) : list Z :=
  map (fun k => start + Z.of_nat k) (seq 0 (Z.to_nat (stop - start))).

(** A [for] loop whose body may raise: the state is threaded through
    the iterations and the first failure ends the loop. *)
Fixpoint for_each {A S : Type} (body : S -> A -> option S)
    (xs : list A) (s : S) : option S :=
  match xs with
  | [] => Some s
  | x :: xs' => s' ← body s x; for_each body xs' s'
  end.

End Py.

Definition SPACE : N := 32%N.

(** ** Configuration *)

Definition Color : Type := Z * Z * Z.

Definition WIDTH : Z := 800.
Definition HEIGHT : Z := 720.
Definition BG_COLOR : Color := (30, 30, 46).
Definition TEXT_COLOR : Color := (205, 214, 244).
Definition DIM_COLOR : Color := (127, 132, 156).
Definition GREEN : Color := (166, 227, 161).
Definition CYAN : Color := (137, 220, 235).
Definition YELLOW : Color := (249, 226, 175).
Definition MAGENTA : Color := (245, 194, 231).
Definition BLUE : Color := (137, 180, 250).
Definition WHITE : Color := (255, 255, 255).
Definition PROMPT_COLOR : Color := (166, 227, 161).
Definition BORDER_COLOR : Color := (69, 71, 90).

Definition FONT_SIZE : Z := 15.
Definition LINE_HEIGHT : Z := 22.
Definition PADDING_X : Z := 24.
Definition PADDING_Y : Z := 50.
Definition TITLE_BAR_H : Z := 38.

(** ** Pillow values *)

Inductive Font : Type :=
  | FreeTypeFont (path : string) (size : Z)
  | DefaultFont.

Record BBox : Type := mkBBox { bb_left : Z; bb_top : Z; bb_right : Z; bb_bottom : Z }.

Inductive Mode : Type := RGB | P.

Inductive QuantizeMethod : Type := MEDIANCUT | MAXCOVERAGE | FASTOCTREE | LIBIMAGEQUANT.

(** One call on an [ImageDraw] object. *)
Inductive DrawOp : Type :=
  | Rectangle (box : Z * Z * Z * Z) (fill : Color)
  | DrawLine (xy : Z * Z * Z * Z) (fill : Color) (width : Z)
  | Ellipse (box : Z * Z * Z * Z) (fill : Color)
  | Text (xy : Z * Z) (text : Py.str) (fill : Color) (fnt : Font).

(** An image is known by how it was made: [Image.new] followed by drawing
    calls, or [quantize] / [convert] of another image. *)
Inductive Image : Type :=
  | Canvas (mode : Mode) (size : Z * Z) (color : Color) (ops : list DrawOp)
  | Quantized (colors : Z) (method : QuantizeMethod) (src : Image)
  | Converted (mode : Mode) (src : Image).

(** [img.size]: neither [quantize] nor [convert] resizes. *)
Fixpoint image_size (img : Image) : Z * Z :=
  match img with
  | Canvas _ size _ _ => size
  | Quantized _ _ src => image_size src
  | Converted _ src => image_size src
  end.

(** The font and the row of a text-drawing call. *)
Definition text_font (op : DrawOp) : option Font :=
  match op with
  | Text _ _ _ fnt => Some fnt
  | _ => None
  end.

Definition text_row (op : DrawOp) : option Z :=
  match op with
  | Text (_, y) _ _ _ => Some y
  | _ => None
  end.

(** ** Frame content *)

Definition Segment : Type := Py.str * Color.

(** An element of the [lines] list given to [create_frame]: a plain
    string, a list of segments, or any other Python value (for which both
    [isinstance] tests answer no). *)
Inductive Line : Type :=
  | LStr (s : Py.str)
  | LList (segments : list Segment)
  | LOther.

#[global] Instance Line_eq_dec : EqDecision Line.
Proof. solve_decision. Defined.

(** The drawing calls made on a canvas. *)
Definition canvas_ops (img : Image) : list DrawOp :=
  match img with
  | Canvas _ _ _ ops => ops
  | _ => []
  end.

(** A text-drawing call whose row of [LINE_HEIGHT] pixels lies between the
    top and the bottom edge of the canvas. *)
Definition row_in_canvas (op : DrawOp) : Prop :=
  match text_row op with
  | Some y => 0 <= y /\ y + LINE_HEIGHT <= HEIGHT
  | None => True
  end.

Record Fonts : Type := mkFonts { font : Font; font_bold : Font; font_title : Font }.

(** ** Files and console *)

(** What [Image.save(..., save_all=True, ...)] is asked to write: the
    image the method is called on followed by [append_images], with the
    duration table, the loop count and the optimize flag.  This is the
    request, not the encoded file: how the encoder stores it (palettes,
    identical consecutive frames, the unit of the delays) and whether it
    accepts it at all are Pillow's business. *)
Record GifFile : Type := mkGif {
  gif_frames : list Image;
  gif_duration : list Z;
  gif_loop : Z;
  gif_optimize : bool
}.

(** The lines printed by [main] and [optimize_gif], with the values that
    are formatted into them. *)
Inductive Printed : Type :=
  | PGenerating
  | PFramesGenerated (n : nat)
  | PSaving
  | PSavedTo (path : string)
  | PSize (size_mb : Q)
  | PDimensions (w h : Z)
  | PFrames (n : nat)
  | PWarning
  | POptimizedSize (size_mb : Q).

(** [fs] maps a path to the last save request made for it. *)
Record World : Type := mkWorld {
  fs : gmap string GifFile;
  stdout : list Printed
}.

Definition print (line : Printed) (w : World) : World :=
  mkWorld (fs w) (stdout w ++ [line]).

(** [self.save(fp, save_all=True, append_images=..., duration=...,
    loop=..., optimize=...)]: the request is recorded for [fp], replacing
    an earlier one.  Only the runs in which Pillow carries the request out
    are described; where it raises (a path that cannot be written, a
    duration table it rejects) the script aborts, since neither [main] nor
    [optimize_gif] catches anything, and nothing below speaks of such a
    run. *)
Definition save (self : Image) (fp : string) (append_images : list Image)
    (duration : list Z) (loop : Z) (optimize : bool) (w : World) : World :=
  mkWorld (<[fp := mkGif (self :: append_images) duration loop optimize]> (fs w))
          (stdout w).

(** [size / (1024 * 1024)].  The divisor is a power of two, so the float
    quotient is the exact rational for every size below 2^53 bytes. *)
Definition to_mb (size_bytes : Z) : Q :=
  (inject_Z size_bytes / inject_Z (1024 * 1024))%Q.

(** A truetype loader under which no font file can be opened, and one
    under which every file opens; a text measure of 9 pixels per code
    point; an encoder model that writes 100000 bytes per frame. *)
Definition truetype_missing : string -> Z -> option Font := fun _ _ => None.
Definition truetype_present : string -> Z -> option Font :=
  fun path size => Some (FreeTypeFont path size).
Definition getbbox_mono : Font -> Py.str -> BBox :=
  fun _ text => mkBBox 0 0 (9 * Py.len text) 15.
Definition file_size_per_frame : GifFile -> Z :=
  fun g => 100000 * Z.of_nat (length (gif_frames g)).

Definition MENLO : string := "/System/Library/Fonts/Menlo.ttc".

Section Program.

(** [ImageFont.truetype]: [None] when the call raises. *)
Variable truetype : string -> Z -> option Font.

(** [font.getbbox(text)] *)
Variable getbbox : Font -> Py.str -> BBox.

(** The absolute path of [demo-cli.gif] next to the script, computed
    from [__file__] when the module is loaded. *)
Variable OUTPUT_PATH : string.

(** The number of bytes the GIF encoder writes for a save request. *)
Variable file_size : GifFile -> Z.

(** *** Font setup *)

Definition load_default : Font := DefaultFont.

(** The [try] block binds the three names only if all three calls
    return; the [except] branch binds all three to the default font. *)
Definition font_setup : Fonts :=
  let attempt :=
    f ← truetype MENLO FONT_SIZE;
    fb ← truetype MENLO FONT_SIZE;
    ft ← truetype MENLO 12;
    Some (mkFonts f fb ft) in
  match attempt with
  | Some fonts => fonts
  | None => let f := load_default in mkFonts f f f
  end.

(** *** Title bar *)

Definition colors_dots : list Color :=
  [(255, 95, 86); (255, 189, 46); (39, 201, 63)].

Definition draw_dot (ops : list DrawOp) (ic : nat * Color) : list DrawOp :=
  let '(i, c) := ic in
  let cx := 20 + Z.of_nat i * 22 in
  let cy := TITLE_BAR_H `div` 2 in
  ops ++ [Ellipse (cx - 6, cy - 6, cx + 6, cy + 6) c].

Definition title : Py.str := Py.lit "Terminal -- markupr".

Definition draw_title_bar (ops : list DrawOp) : list DrawOp :=
  let ops := ops ++ [Rectangle (0, 0, WIDTH, TITLE_BAR_H) (40, 42, 54)] in
  let ops := ops ++ [DrawLine (0, TITLE_BAR_H, WIDTH, TITLE_BAR_H) BORDER_COLOR 1] in
  let ops := foldl draw_dot ops (imap (fun i c => (i, c)) colors_dots) in
  ops ++ [Text (WIDTH `div` 2 - 70, 11) title DIM_COLOR (font_title font_setup)].

(** *** One frame *)

(** The inner loop over the segments of a line: the state is the pen
    position [x] and the drawing calls made so far. *)
Definition draw_segment (y : Z) (st : Z * list DrawOp) (segment : Segment)
    : Z * list DrawOp :=
  let '(x, ops) := st in
  let '(text, color) := segment in
  let ops := ops ++ [Text (x, y) text color (font font_setup)] in
  let bbox := getbbox (font font_setup) text in
  (x + (bb_right bbox - bb_left bbox), ops).

(** The outer loop body: the state is the row position [y] and the
    drawing calls made so far. *)
Definition draw_line (st : Z * list DrawOp) (line : Line) : Z * list DrawOp :=
  let '(y, ops) := st in
  let x := PADDING_X in
  let ops :=
    match line with
    | LStr s => ops ++ [Text (x, y) s TEXT_COLOR (font font_setup)]
    | LList segments => (foldl (draw_segment y) (x, ops) segments).2
    | LOther => ops
    end in
  (y + LINE_HEIGHT, ops).

Definition create_frame (lines : list Line) : Image :=
  let ops := draw_title_bar [] in
  let y := PADDING_Y in
  let '(_, ops) := foldl draw_line (y, ops) lines in
  Canvas RGB (WIDTH, HEIGHT) BG_COLOR ops.


(** *** Prompt line while typing *)

Definition build_cursor_line (text : Py.str) (typed_so_far : Z) : list Segment :=
  let visible := Py.slice_to text typed_so_far in
  [(Py.lit "$ ", PROMPT_COLOR); (visible, TEXT_COLOR); ([0x2588%N], WHITE)].

(** ** The animation sequence *)

Definition command : Py.str := Py.lit "npx markupr analyze ./demo-recording.mov".

(** The builder only ever passes a frame content to [create_frame] and
    stores the result, so it is written once over the rendering
    function: [generate_frames] instantiates it with [create_frame], and
    [frame_contents] with the identity, which keeps the content each
    frame was rendered from. *)
Section Builder.

Context {A : Type}.
Variable render : list Line -> A.

(** Phase 0: [for _ in range(3)], two appends per iteration. *)
Definition blink_step (frames : list (A * Z)) (_ : Z) : list (A * Z) :=
  let frames := frames ++
    [(render [LList [(Py.lit "$ ", PROMPT_COLOR); ([0x2588%N], WHITE)]], 400)] in
  let frames := frames ++
    [(render [LList [(Py.lit "$ ", PROMPT_COLOR)]], 300)] in
  frames.

Definition idle_blink (count : Z) (frames : list (A * Z)) : list (A * Z) :=
  foldl blink_step frames (Py.range 0 count).

(** Phase 1: the delay chosen in the body of
    [for i in range(1, len(command) + 1)].  [command[i - 1]] is
    evaluated first and may raise. *)
Definition keystroke_delay (command : Py.str) (i : Z) : option Z :=
  let delay := 45 in
  c ← Py.index command (i - 1);
  Some (if decide (c = SPACE) then 100
        else if decide (i = Py.len command) then 400
        else delay).

Definition typing_step (command : Py.str) (frames : list (A * Z)) (i : Z)
    : option (list (A * Z)) :=
  let line := [LList (build_cursor_line command i)] in
  delay ← keystroke_delay command i;
  Some (frames ++ [(render line, delay)]).

Definition typing_phase (command : Py.str) (frames : list (A * Z))
    : option (list (A * Z)) :=
  Py.for_each (typing_step command) (Py.range 1 (Py.len command + 1)) frames.

Definition generate_frames_with : option (list (A * Z)) :=
  let frames := [] in
  let frames := idle_blink 3 frames in
  frames ← typing_phase command frames;
  let full_cmd := [(Py.lit "$ ", PROMPT_COLOR); (command, TEXT_COLOR)] in
  let frames := frames ++ [(render [LList full_cmd], 600)] in
  let header_lines :=
    [ LList [(Py.lit "$ ", PROMPT_COLOR); (command, TEXT_COLOR)];
      LList [];
      LList [(Py.lit "  markupr", CYAN); (Py.lit " v2.6.0", DIM_COLOR);
             (Py.lit " " ++ [0x2014%N] ++ Py.lit " Intelligent Developer Feedback", DIM_COLOR)];
      LList [] ] in
  let frames := frames ++ [(render header_lines, 800)] in
  let analyzing := header_lines ++
    [ LList [(Py.lit "  " ++ [0x25b8%N] ++ Py.lit " ", YELLOW); (Py.lit "Analyzing: ", TEXT_COLOR);
             (Py.lit "demo-recording.mov", WHITE); (Py.lit " (2m 34s)", DIM_COLOR)];
      LList [] ] in
  let frames := frames ++ [(render analyzing, 1000)] in
  let base := analyzing in
  let t1 := base ++
    [ LList [(Py.lit "  " ++ [0x25a0%N] ++ Py.lit " ", CYAN); (Py.lit "Transcription", WHITE)] ] in
  let frames := frames ++ [(render t1, 500)] in
  let t2 := base ++
    [ LList [(Py.lit "  " ++ [0x25a0%N] ++ Py.lit " ", CYAN); (Py.lit "Transcription", WHITE)];
      LList [(Py.lit "    " ++ [0x251c%N; 0x2500%N] ++ Py.lit " ", DIM_COLOR); (Py.lit "Using: ", TEXT_COLOR);
             (Py.lit "Local Whisper (base model)", BLUE)] ] in
  let frames := frames ++ [(render t2, 600)] in
  let t3 := base ++
    [ LList [(Py.lit "  " ++ [0x25a0%N] ++ Py.lit " ", CYAN); (Py.lit "Transcription", WHITE)];
      LList [(Py.lit "    " ++ [0x251c%N; 0x2500%N] ++ Py.lit " ", DIM_COLOR); (Py.lit "Using: ", TEXT_COLOR);
             (Py.lit "Local Whisper (base model)", BLUE)];
      LList [(Py.lit "    " ++ [0x251c%N; 0x2500%N] ++ Py.lit " ", DIM_COLOR);
             (Py.lit "Processing audio...", DIM_COLOR)] ] in
  let frames := frames ++ [(render t3, 1800)] in
  let t4 := base ++
    [ LList [(Py.lit "  " ++ [0x25a0%N] ++ Py.lit " ", CYAN); (Py.lit "Transcription", WHITE)];
      LList [(Py.lit "    " ++ [0x251c%N; 0x2500%N] ++ Py.lit " ", DIM_COLOR); (Py.lit "Using: ", TEXT_COLOR);
             (Py.lit "Local Whisper (base model)", BLUE)];
      LList [(Py.lit "    " ++ [0x251c%N; 0x2500%N] ++ Py.lit " ", DIM_COLOR);
             (Py.lit "Processing audio...", DIM_COLOR)];
      LList [(Py.lit "    " ++ [0x2514%N; 0x2500%N] ++ Py.lit " ", DIM_COLOR); ([0x2713%N] ++ Py.lit " ", GREEN);
             (Py.lit "12 segments transcribed (2m 34s)", TEXT_COLOR)] ] in
  let frames := frames ++ [(render t4, 800)] in
  let base2 := t4 ++ [ LList [] ] in
  let f1 := base2 ++
    [ LList [(Py.lit "  " ++ [0x25a0%N] ++ Py.lit " ", CYAN); (Py.lit "Frame Extraction", WHITE)] ] in
  let frames := frames ++ [(render f1, 500)] in
  let f2 := base2 ++
    [ LList [(Py.lit "  " ++ [0x25a0%N] ++ Py.lit " ", CYAN); (Py.lit "Frame Extraction", WHITE)];
      LList [(Py.lit "    " ++ [0x251c%N; 0x2500%N] ++ Py.lit " ", DIM_COLOR);
             (Py.lit "Detecting key moments from transcript...", DIM_COLOR)] ] in
  let frames := frames ++ [(render f2, 1200)] in
  let f3 := base2 ++
    [ LList [(Py.lit "  " ++ [0x25a0%N] ++ Py.lit " ", CYAN); (Py.lit "Frame Extraction", WHITE)];
      LList [(Py.lit "    " ++ [0x251c%N; 0x2500%N] ++ Py.lit " ", DIM_COLOR);
             (Py.lit "Detecting key moments from transcript...", DIM_COLOR)];
      LList [(Py.lit "    " ++ [0x251c%N; 0x2500%N] ++ Py.lit " ", DIM_COLOR);
             (Py.lit "Extracting frames at timestamps...", DIM_COLOR)] ] in
  let frames := frames ++ [(render f3, 1400)] in
  let f4 := base2 ++
    [ LList [(Py.lit "  " ++ [0x25a0%N] ++ Py.lit " ", CYAN); (Py.lit "Frame Extraction", WHITE)];
      LList [(Py.lit "    " ++ [0x251c%N; 0x2500%N] ++ Py.lit " ", DIM_COLOR);
             (Py.lit "Detecting key moments from transcript...", DIM_COLOR)];
      LList [(Py.lit "    " ++ [0x251c%N; 0x2500%N] ++ Py.lit " ", DIM_COLOR);
             (Py.lit "Extracting frames at timestamps...", DIM_COLOR)];
      LList [(Py.lit "    " ++ [0x2514%N; 0x2500%N] ++ Py.lit " ", DIM_COLOR); ([0x2713%N] ++ Py.lit " ", GREEN);
             (Py.lit "8 frames captured", TEXT_COLOR)] ] in
  let frames := frames ++ [(render f4, 800)] in
  let base3 := f4 ++ [ LList [] ] in
  let d1 := base3 ++
    [ LList [(Py.lit "  " ++ [0x25a0%N] ++ Py.lit " ", CYAN); (Py.lit "Document Generation", WHITE)] ] in
  let frames := frames ++ [(render d1, 500)] in
  let d2 := base3 ++
    [ LList [(Py.lit "  " ++ [0x25a0%N] ++ Py.lit " ", CYAN); (Py.lit "Document Generation", WHITE)];
      LList [(Py.lit "    " ++ [0x251c%N; 0x2500%N] ++ Py.lit " ", DIM_COLOR);
             (Py.lit "Correlating screenshots with transcript...", DIM_COLOR)] ] in
  let frames := frames ++ [(render d2, 1000)] in
  let d3 := base3 ++
    [ LList [(Py.lit "  " ++ [0x25a0%N] ++ Py.lit " ", CYAN); (Py.lit "Document Generation", WHITE)];
      LList [(Py.lit "    " ++ [0x251c%N; 0x2500%N] ++ Py.lit " ", DIM_COLOR);
             (Py.lit "Correlating screenshots with transcript...", DIM_COLOR)];
      LList [(Py.lit "    " ++ [0x251c%N; 0x2500%N] ++ Py.lit " ", DIM_COLOR);
             (Py.lit "Building structured markdown...", DIM_COLOR)] ] in
  let frames := frames ++ [(render d3, 1200)] in
  let d4 := base3 ++
    [ LList [(Py.lit "  " ++ [0x25a0%N] ++ Py.lit " ", CYAN); (Py.lit "Document Generation", WHITE)];
      LList [(Py.lit "    " ++ [0x251c%N; 0x2500%N] ++ Py.lit " ", DIM_COLOR);
             (Py.lit "Correlating screenshots with transcript...", DIM_COLOR)];
      LList [(Py.lit "    " ++ [0x251c%N; 0x2500%N] ++ Py.lit " ", DIM_COLOR);
             (Py.lit "Building structured markdown...", DIM_COLOR)];
      LList [(Py.lit "    " ++ [0x2514%N; 0x2500%N] ++ Py.lit " ", DIM_COLOR); ([0x2713%N] ++ Py.lit " ", GREEN);
             (Py.lit "Document ready", TEXT_COLOR)] ] in
  let frames := frames ++ [(render d4, 800)] in
  let base4 := d4 ++ [ LList [] ] in
  let rule := Py.repeat [0x2501%N] 43 in
  let s1 := base4 ++
    [ LList [(Py.lit "  ", TEXT_COLOR); (rule, DIM_COLOR)] ] in
  let frames := frames ++ [(render s1, 600)] in
  let s2 := s1 ++
    [ LList [];
      LList [(Py.lit "  " ++ [0x2713%N] ++ Py.lit " ", GREEN); (Py.lit "Output: ", TEXT_COLOR);
             (Py.lit "./markupr-output/demo-recording.md", CYAN)] ] in
  let frames := frames ++ [(render s2, 800)] in
  let s3 := s2 ++
    [ LList [];
      LList [(Py.lit "    Markdown document with ", DIM_COLOR); (Py.lit "8", WHITE);
             (Py.lit " embedded screenshots", DIM_COLOR)] ] in
  let frames := frames ++ [(render s3, 500)] in
  let s4 := s3 ++
    [ LList [(Py.lit "    ", TEXT_COLOR); (Py.lit "3", WHITE); (Py.lit " issues identified, ", DIM_COLOR);
             (Py.lit "2", WHITE); (Py.lit " suggestions captured", DIM_COLOR)] ] in
  let frames := frames ++ [(render s4, 500)] in
  let s5 := s4 ++
    [ LList [(Py.lit "    File path copied to clipboard", DIM_COLOR)] ] in
  let frames := frames ++ [(render s5, 600)] in
  let s6 := s5 ++
    [ LList [];
      LList [(Py.lit "  Paste into your AI coding agent to action feedback ", DIM_COLOR);
             ([0x2192%N], YELLOW)] ] in
  let frames := frames ++ [(render s6, 3000)] in
  Some frames.

End Builder.

Definition generate_frames : option (list (Image * Z)) :=
  generate_frames_with create_frame.

(** The frame content behind each entry of the sequence. *)
Definition frame_contents : option (list (list Line * Z)) :=
  generate_frames_with (fun lines => lines).

(** ** Saving *)

(** [os.path.getsize(path)]; raises when there is no such file. *)
Definition getsize (path : string) (w : World) : option Z :=
  file_size <$> fs w !! path.

Definition quantize_step (optimized : list Image) (img : Image) : list Image :=
  optimized ++ [Converted RGB (Quantized 64 MEDIANCUT img)].

Definition optimize_gif (path : string) (images : list Image) (durations : list Z)
    (w : World) : option World :=
  let optimized := foldl quantize_step [] images in
  first ← optimized !! 0%nat;
  let w := save first path (drop 1 optimized) durations 0 true w in
  size_bytes ← getsize path w;
  let size_mb := to_mb size_bytes in
  Some (print (POptimizedSize size_mb) w).

Definition main (w : World) : option World :=
  let w := print PGenerating w in
  frames ← generate_frames;
  let w := print (PFramesGenerated (length frames)) w in
  let images := map fst frames in
  let durations := map snd frames in
  let w := print PSaving w in
  first ← images !! 0%nat;
  let w := save first OUTPUT_PATH (drop 1 images) durations 0 true w in
  size_bytes ← getsize OUTPUT_PATH w;
  let size_mb := to_mb size_bytes in
  let w := print (PSavedTo OUTPUT_PATH) w in
  let w := print (PSize size_mb) w in
  let w := print (PDimensions WIDTH HEIGHT) w in
  let w := print (PFrames (length frames)) w in
  if Qlt_le_dec 5 size_mb then
    let w := print PWarning w in
    optimize_gif OUTPUT_PATH images durations w
  else Some w.


(** ** Reading the script back *)

(** The content of the typing frame that shows the first [k] characters
    of [text]. *)
Definition cursor_frame (text : Py.str) (k : nat) : list Line :=
  [LList [(Py.lit "$ ", PROMPT_COLOR); (take k text, TEXT_COLOR); ([0x2588%N], WHITE)]].

(** The delay of the frame triggered by the character at position [k]
    (counted from 0), in closed form. *)
Definition delay_after (text : Py.str) (k : nat) : Z :=
  match text !! k with
  | Some c =>
      if decide (c = SPACE) then 100
      else if decide (S k = length text) then 400
      else 45
  | None => 45
  end.

(** The drawing calls [create_frame] makes for one element of [lines]
    when its row starts at [y]. *)
Definition row_ops (y : Z) (line : Line) : list DrawOp :=
  (draw_line (y, []) line).2.

(** The middle segment of a one-line frame content of three segments:
    the part of the command visible in a typing frame. *)
Definition visible_prefix (content : list Line) : option Py.str :=
  match content with
  | [LList [_; (visible, _); _]] => Some visible
  | _ => None
  end.

(** The width by which [create_frame] moves the pen after a segment. *)
Definition segment_width (segment : Segment) : Z :=
  let bbox := getbbox (font font_setup) segment.1 in
  bb_right bbox - bb_left bbox.

(** The total width of a run of segments. *)
Definition pen_after (segments : list Segment) : Z :=
  foldr (fun segment acc => segment_width segment + acc) 0 segments.

(** What the first [save] of [main] writes, and what the [save] of
    [optimize_gif] writes when called with the same images and durations. *)
Definition first_save (frames : list (Image * Z)) : GifFile :=
  mkGif (map fst frames) (map snd frames) 0 true.

Definition second_save (frames : list (Image * Z)) : GifFile :=
  mkGif (map (fun img => Converted RGB (Quantized 64 MEDIANCUT img)) (map fst frames))
        (map snd frames) 0 true.

(** The lines [main] prints up to and including the frame count. *)
Definition report (frames : list (Image * Z)) : list Printed :=
  [ PGenerating; PFramesGenerated (length frames); PSaving;
    PSavedTo OUTPUT_PATH; PSize (to_mb (file_size (first_save frames)));
    PDimensions WIDTH HEIGHT; PFrames (length frames) ].

(** * Properties *)

(** ** Python helpers *)

Lemma range_from_one (n : nat) :
  Py.range 1 (Z.of_nat n + 1) = map (fun k => Z.of_nat (S k)) (seq 0 n).
Proof.
  unfold Py.range.
  replace (Z.to_nat (Z.of_nat n + 1 - 1)) with n by lia.
  apply map_ext. intros k. lia.
Qed.

Lemma index_in_bounds (s : Py.str) (k : nat) (c : N) :
  s !! k = Some c -> Py.index s (Z.of_nat (S k) - 1) = Some c.
Proof.
  intros Hk. pose proof (lookup_lt_Some _ _ _ Hk) as Hlt.
  unfold Py.index, Py.len.
  rewrite decide_True by lia.
  replace (Z.to_nat (Z.of_nat (S k) - 1)) with k by lia. exact Hk.
Qed.

Lemma slice_to_take (s : Py.str) (k : nat) :
  Py.slice_to s (Z.of_nat k) = take k s.
Proof.
  unfold Py.slice_to. rewrite decide_True by lia. by rewrite Nat2Z.id.
Qed.

(** ** The renderer *)

Lemma draw_segments_acc (y : Z) (segments : list Segment) (x : Z) (ops : list DrawOp) :
  foldl (draw_segment y) (x, ops) segments
  = ((foldl (draw_segment y) (x, []) segments).1,
     ops ++ (foldl (draw_segment y) (x, []) segments).2).
Proof.
  revert x ops. induction segments as [|[text color] segments IH]; intros x ops; simpl.
  - by rewrite app_nil_r.
  - rewrite IH.
    rewrite (IH _ [Text (x, y) text color (font font_setup)]). simpl.
    by rewrite <- app_assoc.
Qed.

Lemma draw_line_acc (y : Z) (ops : list DrawOp) (line : Line) :
  draw_line (y, ops) line = (y + LINE_HEIGHT, ops ++ row_ops y line).
Proof.
  unfold row_ops, draw_line. destruct line as [s|segments|]; simpl.
  - done.
  - by rewrite draw_segments_acc.
  - by rewrite app_nil_r.
Qed.

Lemma draw_lines_acc (lines : list Line) (y : Z) (ops : list DrawOp) :
  foldl draw_line (y, ops) lines
  = (y + Z.of_nat (length lines) * LINE_HEIGHT,
     ops ++ mjoin (imap (fun k line => row_ops (y + Z.of_nat k * LINE_HEIGHT) line) lines)).
Proof.
  revert y ops. induction lines as [|line lines IH]; intros y ops.
  - simpl. rewrite app_nil_r. f_equal. lia.
  - cbn [foldl]. rewrite draw_line_acc, IH, imap_cons.
    f_equal; [rewrite length_cons; lia|].
    rewrite <- app_assoc. f_equal. cbn [mjoin list_join]. f_equal.
    + f_equal. lia.
    + f_equal. apply imap_ext. intros k l _. simpl. f_equal. lia.
Qed.

Lemma segments_ops_text (y : Z) (segments : list Segment) (x : Z) :
  Forall (fun op => text_row op = Some y /\ text_font op = Some (font font_setup))
         (foldl (draw_segment y) (x, []) segments).2.
Proof.
  revert x. induction segments as [|[text color] segments IH]; intros x; simpl.
  - constructor.
  - rewrite draw_segments_acc. simpl. constructor; [done|apply IH].
Qed.

Lemma row_ops_text (y : Z) (line : Line) :
  Forall (fun op => text_row op = Some y /\ text_font op = Some (font font_setup))
         (row_ops y line).
Proof.
  unfold row_ops, draw_line. destruct line as [s|segments|]; simpl.
  - constructor; [done|constructor].
  - apply segments_ops_text.
  - constructor.
Qed.

Lemma segments_lookup (y : Z) (segments : list Segment) (x : Z) (k : nat)
    (text : Py.str) (color : Color) :
  segments !! k = Some (text, color) ->
  (foldl (draw_segment y) (x, []) segments).2 !! k
  = Some (Text (x + pen_after (take k segments), y) text color (font font_setup)).
Proof.
  revert x k. induction segments as [|[t c] segments IH]; intros x k Hk; [done|].
  simpl. rewrite draw_segments_acc. simpl.
  destruct k as [|k]; simpl in *.
  - injection Hk as -> ->. do 2 f_equal. f_equal. lia.
  - rewrite (IH _ _ Hk). do 2 f_equal. f_equal.
    unfold segment_width. simpl. lia.
Qed.

Lemma segments_count (y : Z) (segments : list Segment) (x : Z) :
  length (foldl (draw_segment y) (x, []) segments).2 = length segments.
Proof.
  revert x. induction segments as [|[t c] segments IH]; intros x; [done|].
  simpl. rewrite draw_segments_acc. simpl. by rewrite IH.
Qed.

(** The calls made for a list of segments, in closed form: one text call
    per segment, each at the pen position reached after the segments
    before it. *)
Lemma segments_ops (y : Z) (segments : list Segment) (x : Z) :
  (foldl (draw_segment y) (x, []) segments).2
  = imap (fun j segment =>
            Text (x + pen_after (take j segments), y) segment.1 segment.2 (font font_setup))
         segments.
Proof.
  apply list_eq. intros j. rewrite list_lookup_imap.
  destruct (segments !! j) as [[text color]|] eqn:E.
  - rewrite (segments_lookup y segments x j text color E).
    unfold Segment in *. by rewrite E.
  - unfold Segment in *. rewrite E. simpl.
    apply lookup_ge_None. rewrite segments_count. by apply lookup_ge_None.
Qed.

Lemma row_ops_str (y : Z) (s : Py.str) :
  row_ops y (LStr s) = [Text (PADDING_X, y) s TEXT_COLOR (font font_setup)].
Proof. reflexivity. Qed.

Lemma row_ops_list (y : Z) (segments : list Segment) :
  row_ops y (LList segments)
  = imap (fun j segment =>
            Text (PADDING_X + pen_after (take j segments), y) segment.1 segment.2
                 (font font_setup))
         segments.
Proof. unfold row_ops, draw_line. simpl. apply segments_ops. Qed.

Lemma create_frame_ops (lines : list Line) :
  create_frame lines
  = Canvas RGB (WIDTH, HEIGHT) BG_COLOR
      (draw_title_bar [] ++
       mjoin (imap (fun k line => row_ops (PADDING_Y + Z.of_nat k * LINE_HEIGHT) line) lines)).
Proof. unfold create_frame. by rewrite draw_lines_acc. Qed.

Lemma row_call_drawn (lines : list Line) (k : nat) (line : Line) (op : DrawOp) :
  lines !! k = Some line ->
  op ∈ row_ops (PADDING_Y + Z.of_nat k * LINE_HEIGHT) line ->
  op ∈ canvas_ops (create_frame lines).
Proof.
  intros Hk Hop. rewrite create_frame_ops. cbn [canvas_ops].
  apply elem_of_app. right. apply list_elem_of_join.
  exists (row_ops (PADDING_Y + Z.of_nat k * LINE_HEIGHT) line). split; [exact Hop|].
  by apply (elem_of_lookup_imap_2
              (fun k line => row_ops (PADDING_Y + Z.of_nat k * LINE_HEIGHT) line)).
Qed.

(** C10. The renderer gives each element of the frame content one row of
    22 px: after [k] elements the row position is
    [PADDING_Y + k * LINE_HEIGHT], and what is drawn for element [k] is
    drawn at that y.  A string is drawn as one text call at the left
    margin in the text colour; a list of segments as one text call per
    segment, each in its colour at the pen position reached after the
    segments before it.  An empty segment list and an element that is
    neither a string nor a list draw nothing, and the row position still
    advances by one row. *)
Theorem row_advance (lines : list Line) :
  LINE_HEIGHT = 22
  /\ foldl draw_line (PADDING_Y, draw_title_bar []) lines
     = (PADDING_Y + Z.of_nat (length lines) * LINE_HEIGHT,
        draw_title_bar [] ++
        mjoin (imap (fun k line => row_ops (PADDING_Y + Z.of_nat k * LINE_HEIGHT) line) lines))
  /\ create_frame lines
     = Canvas RGB (WIDTH, HEIGHT) BG_COLOR
         (draw_title_bar [] ++
          mjoin (imap (fun k line => row_ops (PADDING_Y + Z.of_nat k * LINE_HEIGHT) line) lines))
  /\ (forall (y : Z) (line : Line),
        Forall (fun op => text_row op = Some y) (row_ops y line))
  /\ (forall (y : Z) (ops : list DrawOp),
        draw_line (y, ops) (LList []) = (y + 22, ops)
        /\ draw_line (y, ops) LOther = (y + 22, ops))
  /\ (forall (y : Z) (s : Py.str),
        row_ops y (LStr s) = [Text (PADDING_X, y) s TEXT_COLOR (font font_setup)])
  /\ (forall (y : Z) (segments : list Segment),
        row_ops y (LList segments)
        = imap (fun j segment =>
                  Text (PADDING_X + pen_after (take j segments), y) segment.1 segment.2
                       (font font_setup))
               segments)
  /\ (forall y : Z, row_ops y (LList []) = [] /\ row_ops y LOther = [])
  /\ (forall (k : nat) (s : Py.str),
        lines !! k = Some (LStr s) ->
        Text (PADDING_X, PADDING_Y + Z.of_nat k * LINE_HEIGHT) s TEXT_COLOR (font font_setup)
        ∈ canvas_ops (create_frame lines))
  /\ (forall (k : nat) (segments : list Segment) (j : nat) (text : Py.str) (color : Color),
        lines !! k = Some (LList segments) ->
        segments !! j = Some (text, color) ->
        Text (PADDING_X + pen_after (take j segments),
              PADDING_Y + Z.of_nat k * LINE_HEIGHT) text color (font font_setup)
        ∈ canvas_ops (create_frame lines)).
Proof.
  split; [reflexivity|split; [apply draw_lines_acc|split; [|split; [|split]]]].
  - apply create_frame_ops.
  - intros y line. eapply Forall_impl; [apply row_ops_text|]. by intros op [H _].
  - intros y ops. split; reflexivity.
  - split; [exact row_ops_str|split; [exact row_ops_list|split; [|split]]].
    + intros y. split; reflexivity.
    + intros k s Hk. apply (row_call_drawn _ _ _ _ Hk).
      rewrite row_ops_str. by apply list_elem_of_singleton.
    + intros k segments j text color Hk Hj. apply (row_call_drawn _ _ _ _ Hk).
      rewrite row_ops_list.
      apply (elem_of_lookup_imap_2
               (fun j segment =>
                  Text (PADDING_X + pen_after (take j segments),
                        PADDING_Y + Z.of_nat k * LINE_HEIGHT) segment.1 segment.2
                       (font font_setup))
               segments (text, color) j Hj).
Qed.

(** ** Fonts *)

Lemma title_bar_ops :
  draw_title_bar []
  = [ Rectangle (0, 0, 800, 38) (40, 42, 54);
      DrawLine (0, 38, 800, 38) BORDER_COLOR 1;
      Ellipse (14, 13, 26, 25) (255, 95, 86);
      Ellipse (36, 13, 48, 25) (255, 189, 46);
      Ellipse (58, 13, 70, 25) (39, 201, 63);
      Text (330, 11) title DIM_COLOR (font_title font_setup) ].
Proof. reflexivity. Qed.

(** C9. If a call that loads the preferred font fails, all three font
    names are bound to the default font; the setup itself always yields
    fonts, and every frame is then rendered, with each piece of text
    drawn in the default font. *)
Theorem font_fallback :
  truetype MENLO FONT_SIZE = None \/ truetype MENLO 12 = None ->
  font_setup = mkFonts load_default load_default load_default
  /\ forall lines : list Line,
       exists ops : list DrawOp,
         create_frame lines = Canvas RGB (WIDTH, HEIGHT) BG_COLOR ops
         /\ Forall (fun op => text_font op = None \/ text_font op = Some load_default) ops.
Proof.
  intros Hfail.
  assert (Hfonts : font_setup = mkFonts load_default load_default load_default).
  { unfold font_setup. destruct Hfail as [H|H].
    - by rewrite H.
    - rewrite H. by destruct (truetype MENLO FONT_SIZE). }
  split; [exact Hfonts|]. intros lines.
  rewrite create_frame_ops.
  eexists. split; [reflexivity|].
  apply Forall_app. split.
  - rewrite title_bar_ops, Hfonts. simpl.
    repeat (constructor; [by (left + right)|]). constructor.
  - apply Forall_forall. intros op Hop.
    apply list_elem_of_join in Hop as (row & Hop & Hrow).
    apply elem_of_lookup_imap in Hrow as (k & line & -> & _).
    pose proof (row_ops_text (PADDING_Y + Z.of_nat k * LINE_HEIGHT) line) as Hall.
    rewrite Forall_forall in Hall. destruct (Hall op Hop) as [_ Hf].
    right. by rewrite Hf, Hfonts.
Qed.

(** ** The typing phase in closed form *)

Section Typing.

Context {A : Type}.
Variable render : list Line -> A.

Lemma keystroke_delay_in_bounds (cmd : Py.str) (k : nat) :
  (k < length cmd)%nat ->
  keystroke_delay cmd (Z.of_nat (S k)) = Some (delay_after cmd k).
Proof.
  intros Hk. destruct (lookup_lt_is_Some_2 cmd k Hk) as [c Hc].
  unfold keystroke_delay, delay_after.
  rewrite (index_in_bounds _ _ _ Hc), Hc. simpl.
  destruct (decide (c = SPACE)); [done|].
  unfold Py.len.
  destruct (decide (S k = length cmd)) as [->|Hne].
  - by rewrite decide_True.
  - by rewrite decide_False by lia.
Qed.

Lemma build_cursor_line_frame (cmd : Py.str) (k : nat) :
  [LList (build_cursor_line cmd (Z.of_nat k))] = cursor_frame cmd k.
Proof. unfold build_cursor_line, cursor_frame. by rewrite slice_to_take. Qed.

Lemma typing_step_in_bounds (cmd : Py.str) (frames : list (A * Z)) (k : nat) :
  (k < length cmd)%nat ->
  typing_step render cmd frames (Z.of_nat (S k))
  = Some (frames ++ [(render (cursor_frame cmd (S k)), delay_after cmd k)]).
Proof.
  intros Hk. unfold typing_step.
  rewrite (keystroke_delay_in_bounds _ _ Hk), build_cursor_line_frame.
  done.
Qed.

Lemma typing_loop (cmd : Py.str) (ks : list nat) (frames : list (A * Z)) :
  Forall (fun k => (k < length cmd)%nat) ks ->
  Py.for_each (typing_step render cmd) (map (fun k => Z.of_nat (S k)) ks) frames
  = Some (frames ++
          map (fun k => (render (cursor_frame cmd (S k)), delay_after cmd k)) ks).
Proof.
  intros Hks. revert frames.
  induction Hks as [|k ks Hk _ IH]; intros frames; simpl.
  - by rewrite app_nil_r.
  - rewrite (typing_step_in_bounds _ _ _ Hk). simpl.
    rewrite IH. by rewrite <- app_assoc.
Qed.

Lemma typing_phase_closed (cmd : Py.str) (frames : list (A * Z)) :
  typing_phase render cmd frames
  = Some (frames ++
          map (fun k => (render (cursor_frame cmd (S k)), delay_after cmd k))
              (seq 0 (length cmd))).
Proof.
  unfold typing_phase, Py.len. rewrite range_from_one.
  apply typing_loop, Forall_forall. intros k Hk.
  apply elem_of_seq in Hk. lia.
Qed.

Lemma last_map_seq {B : Type} (f : nat -> B) (n : nat) :
  last (map f (seq 0 (S n))) = Some (f n).
Proof.
  rewrite seq_S, map_app. simpl. by rewrite last_snoc.
Qed.

(** C1. For a command of [N] characters the typing phase appends
    exactly [N] frames to the sequence, the k-th of them rendered from
    the prompt, the first [k] characters of the command and the cursor
    glyph; the visible prefixes have lengths 1, 2, ..., N, and the last
    typing frame shows the whole command. *)
Theorem typing_phase_frames (cmd : Py.str) :
  exists typed : list (A * Z),
    typing_phase render cmd [] = Some typed
    /\ (forall frames, typing_phase render cmd frames = Some (frames ++ typed))
    /\ length typed = length cmd
    /\ map fst typed
       = map (fun k => render
                [LList [(Py.lit "$ ", PROMPT_COLOR); (take k cmd, TEXT_COLOR);
                        ([0x2588%N], WHITE)]])
             (seq 1 (length cmd))
    /\ map (fun k => length <$> visible_prefix (cursor_frame cmd k)) (seq 1 (length cmd))
       = map Some (seq 1 (length cmd))
    /\ last (map fst typed)
       = (if decide (cmd = []) then None
          else Some (render
                 [LList [(Py.lit "$ ", PROMPT_COLOR); (cmd, TEXT_COLOR);
                         ([0x2588%N], WHITE)]])).
Proof.
  exists (map (fun k => (render (cursor_frame cmd (S k)), delay_after cmd k))
              (seq 0 (length cmd))).
  split; [|split; [|split; [|split; [|split]]]].
  - by rewrite typing_phase_closed.
  - intros frames. apply typing_phase_closed.
  - by rewrite length_map, length_seq.
  - rewrite map_map. simpl. rewrite <- seq_shift, map_map. reflexivity.
  - apply map_ext_in. intros k Hk. apply in_seq in Hk. simpl.
    rewrite length_take. f_equal. lia.
  - rewrite map_map. simpl.
    destruct cmd as [|c cmd'] eqn:E; [done|].
    rewrite decide_False by done.
    rewrite <- E. replace (length cmd) with (S (length cmd')) by (by subst).
    rewrite (last_map_seq (fun k => render (cursor_frame cmd (S k)))).
    unfold cursor_frame. rewrite firstn_all2; [done|]. subst. simpl. lia.
Qed.

(** *** Keystroke delays *)

Lemma delay_after_space (cmd : Py.str) (k : nat) :
  cmd !! k = Some SPACE -> delay_after cmd k = 100.
Proof. intros H. unfold delay_after. rewrite H. by rewrite decide_True. Qed.

Lemma delay_after_interior (cmd : Py.str) (k : nat) :
  (S k < length cmd)%nat -> delay_after cmd k <= 100.
Proof.
  intros H. unfold delay_after.
  destruct (cmd !! k) as [c|]; [|lia].
  destruct (decide (c = SPACE)); [lia|].
  rewrite decide_False by lia. lia.
Qed.

Lemma delay_after_final (cmd : Py.str) (n : nat) :
  length cmd = S n -> last cmd <> Some SPACE -> delay_after cmd n = 400.
Proof.
  intros Hlen Hlast. unfold delay_after.
  rewrite last_lookup, Hlen in Hlast. simpl in Hlast.
  destruct (cmd !! n) as [c|] eqn:E.
  - rewrite decide_False by congruence. by rewrite decide_True.
  - apply lookup_ge_None in E. lia.
Qed.

(** For any command that does not end in a space, the pause after the
    last keystroke is longer than the delay of every earlier one. *)
Lemma final_delay_dominates (cmd : Py.str) (n k : nat) :
  length cmd = S n -> last cmd <> Some SPACE -> (k < n)%nat ->
  delay_after cmd k < delay_after cmd n.
Proof.
  intros Hlen Hlast Hk. rewrite (delay_after_final _ _ Hlen Hlast).
  pose proof (delay_after_interior cmd k). lia.
Qed.

Lemma typed_lookup (cmd : Py.str) (k : nat) (fr : A) (d : Z) :
  map (fun k => (render (cursor_frame cmd (S k)), delay_after cmd k))
      (seq 0 (length cmd)) !! k = Some (fr, d) ->
  (k < length cmd)%nat /\ d = delay_after cmd k.
Proof.
  intros H. rewrite list_lookup_fmap in H.
  destruct (seq 0 (length cmd) !! k) as [j|] eqn:E; [|done].
  apply lookup_seq in E as [-> Hlt]. simpl in H.
  split; [done|]. congruence.
Qed.

(** C5. In the typing phase of the script, a frame triggered by a
    space is held for at least the default per-character delay of
    45 ms, and the last typing frame is held strictly longer than
    every typing frame before it. *)
Theorem typing_timing_policy :
  exists typed : list (A * Z),
    typing_phase render command [] = Some typed
    /\ (forall (k : nat) (fr : A) (d : Z),
          typed !! k = Some (fr, d) -> command !! k = Some SPACE -> 45 <= d)
    /\ (forall (k : nat) (fr fl : A) (d dl : Z),
          typed !! k = Some (fr, d) -> (S k < length typed)%nat ->
          last typed = Some (fl, dl) -> d < dl).
Proof.
  exists (map (fun k => (render (cursor_frame command (S k)), delay_after command k))
              (seq 0 (length command))).
  split; [by rewrite typing_phase_closed|split].
  - intros k fr d Hk Hsp. apply typed_lookup in Hk as [_ ->].
    rewrite (delay_after_space _ _ Hsp). lia.
  - intros k fr fl d dl Hk Hlt Hlast.
    apply typed_lookup in Hk as [_ ->].
    rewrite length_map, length_seq in Hlt.
    assert (Hlen : length command = 40%nat) by reflexivity.
    rewrite Hlen in Hlast, Hlt.
    rewrite (last_map_seq
               (fun k => (render (cursor_frame command (S k)), delay_after command k)))
      in Hlast.
    injection Hlast as _ <-.
    apply final_delay_dominates; [done| |lia].
    vm_compute. discriminate.
Qed.

(** *** Idle blink *)

Lemma blink_loop (ks : list Z) (frames : list (A * Z)) :
  length (foldl (blink_step render) frames ks)
  = (length frames + 2 * length ks)%nat.
Proof.
  revert frames. induction ks as [|k ks IH]; intros frames; simpl.
  - lia.
  - rewrite IH. unfold blink_step. rewrite !length_app. simpl. lia.
Qed.

Lemma idle_blink_length (n : nat) (frames : list (A * Z)) :
  length (idle_blink render (Z.of_nat n) frames) = (length frames + 2 * n)%nat.
Proof.
  unfold idle_blink, Py.range. rewrite blink_loop, length_map, length_seq. lia.
Qed.

(** The script only hands frame contents to the renderer: the
    sequence built with any renderer is the sequence of contents with
    the renderer applied to each entry. *)
Lemma generate_frames_with_natural :
  generate_frames_with render
  = map (fun p => (render p.1, p.2)) <$> generate_frames_with (fun lines => lines).
Proof. vm_compute. reflexivity. Qed.

(** C6. With the repeat count 3 of the script, the idle-blink phase
    yields exactly 6 frames: prompt with cursor for 400 ms, prompt
    without cursor for 300 ms, three times over; these are the first
    six frames of the generated sequence. *)
Theorem idle_blink_scenario :
  idle_blink render 3 []
  = [ (render [LList [(Py.lit "$ ", PROMPT_COLOR); ([0x2588%N], WHITE)]], 400);
      (render [LList [(Py.lit "$ ", PROMPT_COLOR)]], 300);
      (render [LList [(Py.lit "$ ", PROMPT_COLOR); ([0x2588%N], WHITE)]], 400);
      (render [LList [(Py.lit "$ ", PROMPT_COLOR)]], 300);
      (render [LList [(Py.lit "$ ", PROMPT_COLOR); ([0x2588%N], WHITE)]], 400);
      (render [LList [(Py.lit "$ ", PROMPT_COLOR)]], 300) ]
  /\ length (idle_blink render 3 []) = 6%nat
  /\ map snd (idle_blink render 3 []) = [400; 300; 400; 300; 400; 300]
  /\ take 6 <$> generate_frames_with render = Some (idle_blink render 3 []).
Proof.
  split; [reflexivity|split; [|split]].
  - apply (idle_blink_length 3 []).
  - reflexivity.
  - vm_compute. reflexivity.
Qed.

End Typing.

(** ** The generated sequence *)

Lemma generate_frames_contents :
  generate_frames = map (fun p => (create_frame p.1, p.2)) <$> frame_contents.
Proof. apply generate_frames_with_natural. Qed.

Lemma frame_contents_runs :
  exists contents, frame_contents = Some contents /\ length contents = 67%nat.
Proof. vm_compute. eexists. split; reflexivity. Qed.

Lemma create_frame_canvas (lines : list Line) :
  exists ops, create_frame lines = Canvas RGB (WIDTH, HEIGHT) BG_COLOR ops.
Proof.
  unfold create_frame.
  destruct (foldl draw_line (PADDING_Y, draw_title_bar []) lines) as [y ops].
  by exists ops.
Qed.

(** The number of lines behind each frame, in sequence order. *)
Lemma line_counts :
  map (fun p => length p.1) <$> frame_contents
  = Some (replicate 47 1 ++ [4; 6; 7; 8; 9; 10; 12; 13; 14; 15; 17; 18; 19; 20;
                             22; 24; 26; 27; 28; 30])%nat.
Proof. vm_compute. reflexivity. Qed.

(** The duration of each frame, in sequence order. *)
Lemma durations :
  map snd <$> frame_contents
  = Some [400; 300; 400; 300; 400; 300;
          45; 45; 45; 100; 45; 45; 45; 45; 45; 45; 45; 100; 45; 45;
          45; 45; 45; 45; 45; 100; 45; 45; 45; 45; 45; 45; 45; 45; 45; 45;
          45; 45; 45; 45; 45; 45; 45; 45; 45; 400;
          600; 800; 1000; 500; 600; 1800; 800; 500; 1200; 1400; 800;
          500; 1000; 1200; 800; 600; 800; 500; 500; 600; 3000].
Proof. vm_compute. reflexivity. Qed.

Lemma sorted_le_strongly (l : list nat) :
  Sorted Nat.le l -> StronglySorted Nat.le l.
Proof. apply Sorted_StronglySorted. intros x y z. apply Nat.le_trans. Qed.

(** C3. Along the whole generated sequence the number of lines of the
    content each frame is rendered from never decreases: every frame has
    at most as many lines as each frame after it. *)
Theorem line_count_non_decreasing :
  exists contents : list (list Line * Z),
    frame_contents = Some contents
    /\ generate_frames = Some (map (fun p => (create_frame p.1, p.2)) contents)
    /\ StronglySorted Nat.le (map (fun p => length p.1) contents).
Proof.
  destruct frame_contents as [contents|] eqn:E;
    [|by destruct frame_contents_runs as (c & Hc & _); congruence].
  exists contents. split; [done|split].
  - by rewrite generate_frames_contents, E.
  - pose proof line_counts as Hcounts. rewrite E in Hcounts.
    injection Hcounts as ->.
    apply sorted_le_strongly. simpl.
    repeat (apply Sorted_cons; [|first [apply HdRel_nil | apply HdRel_cons; lia]]).
    apply Sorted_nil.
Qed.

(** C4. The image list and the duration list taken from the generated
    sequence have the same length, and the renderer returns an
    800 x 720 canvas whatever content it is given, so every frame of the
    sequence has these dimensions. *)
Theorem sequence_well_formed :
  (forall lines : list Line, image_size (create_frame lines) = (800, 720))
  /\ exists frames : list (Image * Z),
       generate_frames = Some frames
       /\ length (map fst frames) = length (map snd frames)
       /\ Forall (fun img => image_size img = (800, 720)) (map fst frames).
Proof.
  assert (Hsize : forall lines : list Line, image_size (create_frame lines) = (800, 720)).
  { intros lines. destruct (create_frame_canvas lines) as [ops ->]. reflexivity. }
  split; [exact Hsize|].
  destruct frame_contents_runs as (contents & Hc & _).
  exists (map (fun p => (create_frame p.1, p.2)) contents).
  split; [by rewrite generate_frames_contents, Hc|split].
  - by rewrite !length_map.
  - rewrite map_map. apply Forall_forall. intros img Himg.
    apply list_elem_of_fmap in Himg as (p & -> & _). apply Hsize.
Qed.

(** C7. The last frame of the generated sequence is held for 3000 ms,
    strictly longer than every other frame of the sequence. *)
Theorem final_hold :
  exists frames : list (Image * Z),
    generate_frames = Some frames
    /\ last (map snd frames) = Some 3000
    /\ Forall (fun d => d < 3000) (removelast (map snd frames)).
Proof.
  destruct frame_contents as [contents|] eqn:E;
    [|by destruct frame_contents_runs as (c & Hc & _); congruence].
  exists (map (fun p => (create_frame p.1, p.2)) contents).
  split; [by rewrite generate_frames_contents, E|].
  pose proof durations as Hd. rewrite E in Hd. injection Hd as Hd.
  rewrite map_map. simpl. change (fun x : list Line * Z => x.2) with (@snd (list Line) Z).
  rewrite Hd.
  split; [reflexivity|]. simpl.
  repeat (constructor; [reflexivity|]). constructor.
Qed.

(** ** Saving and the size guard *)

Lemma to_mb_over_budget (size_bytes : Z) :
  (5 < to_mb size_bytes)%Q <-> 5 * 1024 * 1024 < size_bytes.
Proof.
  unfold to_mb, Qlt, Qdiv, Qmult, Qinv, inject_Z. simpl.
  change (Z.pos (1 * (1024 * 1024))) with 1048576. lia.
Qed.

Lemma quantize_loop (images acc : list Image) :
  foldl quantize_step acc images
  = acc ++ map (fun img => Converted RGB (Quantized 64 MEDIANCUT img)) images.
Proof.
  revert acc. induction images as [|img images IH]; intros acc; simpl.
  - by rewrite app_nil_r.
  - rewrite IH. unfold quantize_step. by rewrite <- app_assoc.
Qed.

Lemma head_drop {B : Type} (l : list B) (x : B) :
  l !! 0%nat = Some x -> x :: drop 1 l = l.
Proof. destruct l as [|y l]; simpl; [done|]. intros [= ->]. by rewrite drop_0. Qed.

Lemma getsize_save (self : Image) (fp : string) (rest : list Image)
    (duration : list Z) (loop : Z) (optimize : bool) (w : World) :
  getsize fp (save self fp rest duration loop optimize w)
  = Some (file_size (mkGif (self :: rest) duration loop optimize)).
Proof. unfold getsize, save. simpl. by rewrite lookup_insert_eq. Qed.

Lemma optimize_gif_runs (path : string) (images : list Image) (durations : list Z)
    (w : World) :
  images <> [] ->
  optimize_gif path images durations w
  = Some (mkWorld
            (<[path := mkGif (map (fun img => Converted RGB (Quantized 64 MEDIANCUT img)) images)
                             durations 0 true]> (fs w))
            (stdout w ++
             [POptimizedSize
                (to_mb (file_size
                   (mkGif (map (fun img => Converted RGB (Quantized 64 MEDIANCUT img)) images)
                          durations 0 true)))])).
Proof.
  intros Hne. unfold optimize_gif. rewrite quantize_loop. simpl.
  destruct images as [|img images]; [done|]. simpl.
  rewrite drop_0, getsize_save. reflexivity.
Qed.

Lemma generate_frames_runs :
  exists (frame : Image * Z) (frames : list (Image * Z)),
    generate_frames = Some (frame :: frames).
Proof.
  destruct frame_contents_runs as (contents & Hc & Hlen).
  rewrite generate_frames_contents, Hc.
  destruct contents as [|c contents]; [done|]. simpl. eauto.
Qed.

Lemma generate_frames_length (frames : list (Image * Z)) :
  generate_frames = Some frames -> length frames = 67%nat.
Proof.
  destruct frame_contents_runs as (contents & Hc & Hlen).
  rewrite generate_frames_contents, Hc. intros [= <-].
  by rewrite length_map.
Qed.

(** The artifact is at most 5 MiB after the first save: [optimize_gif]
    is not called, the file holds what the first save wrote and the
    last line printed is the frame count. *)
Lemma main_within_budget (w : World) (frames : list (Image * Z)) :
  generate_frames = Some frames ->
  file_size (mkGif (map fst frames) (map snd frames) 0 true) <= 5 * 1024 * 1024 ->
  exists w', main w = Some w'
    /\ fs w' = <[OUTPUT_PATH := mkGif (map fst frames) (map snd frames) 0 true]> (fs w)
    /\ last (stdout w') = Some (PFrames (length frames)).
Proof.
  intros Hgen Hsize.
  destruct generate_frames_runs as (frame & rest & Hrun).
  rewrite Hgen in Hrun. injection Hrun as ->.
  unfold main. rewrite Hgen. simpl. rewrite drop_0, getsize_save. simpl.
  destruct (Qlt_le_dec 5 _) as [Hover|_].
  - apply (proj1 (to_mb_over_budget _)) in Hover.
    destruct (Z.lt_irrefl _ (Z.lt_le_trans _ _ _ Hover Hsize)).
  - eexists. split; [reflexivity|]. simpl. split; [done|].
    by rewrite last_snoc.
Qed.

(** The artifact exceeds 5 MiB after the first save: [optimize_gif] is
    called once, on the same path, with the images and durations of the
    first save, and nothing follows it. *)
Lemma main_over_budget (w : World) (frames : list (Image * Z)) :
  generate_frames = Some frames ->
  5 * 1024 * 1024 < file_size (mkGif (map fst frames) (map snd frames) 0 true) ->
  exists w0,
    fs w0 = <[OUTPUT_PATH := mkGif (map fst frames) (map snd frames) 0 true]> (fs w)
    /\ main w = optimize_gif OUTPUT_PATH (map fst frames) (map snd frames) w0.
Proof.
  intros Hgen Hsize.
  destruct generate_frames_runs as (frame & rest & Hrun).
  rewrite Hgen in Hrun. injection Hrun as ->.
  unfold main. rewrite Hgen. simpl. rewrite drop_0, getsize_save. simpl.
  destruct (Qlt_le_dec 5 _) as [_|Hle].
  - eexists. split; [|reflexivity]. done.
  - exfalso. apply Qle_not_lt in Hle.
    apply Hle, (proj2 (to_mb_over_budget _)). exact Hsize.
Qed.

(** C8. When it runs, the re-encoder replaces every frame by its
    64-colour median-cut quantisation converted back to RGB, in order,
    and saves these under the path it was given with the duration list
    it was given and loop count 0; [main] calls it on the path, images
    and durations of the first save, whose loop count is 0 as well, so
    the artifact is overwritten in place. *)
Theorem reencoding_step (path : string) (images : list Image) (durations : list Z)
    (w : World) :
  images <> [] ->
  (exists w', optimize_gif path images durations w = Some w'
     /\ fs w' = <[path := mkGif (map (fun img => Converted RGB (Quantized 64 MEDIANCUT img)) images)
                               durations 0 true]> (fs w))
  /\ (exists frames : list (Image * Z),
        generate_frames = Some frames
        /\ (5 * 1024 * 1024 < file_size (mkGif (map fst frames) (map snd frames) 0 true) ->
            exists w', main w = Some w'
              /\ fs w' = <[OUTPUT_PATH :=
                             mkGif (map (fun img => Converted RGB (Quantized 64 MEDIANCUT img))
                                        (map fst frames))
                                   (map snd frames) 0 true]> (fs w))).
Proof.
  intros Hne. split.
  - rewrite (optimize_gif_runs _ _ _ _ Hne). eexists. split; reflexivity.
  - destruct generate_frames_runs as (frame & rest & Hrun).
    exists (frame :: rest). split; [done|]. intros Hsize.
    destruct (main_over_budget w _ Hrun Hsize) as (w0 & Hfs & ->).
    rewrite optimize_gif_runs by done.
    eexists. split; [reflexivity|]. simpl.
    rewrite Hfs. apply insert_insert_eq.
Qed.

(** ** Further properties of the renderer *)

(** X1. Within a segmented line the pen starts at the left margin and
    moves right by the measured width of each segment drawn: segment [k]
    is drawn at [x = PADDING_X] plus the widths of the segments before it,
    on the row's [y], with its own text and colour, and one call is made
    per segment. *)
Theorem segment_positions (y : Z) (segments : list Segment) (k : nat)
    (text : Py.str) (color : Color) :
  segments !! k = Some (text, color) ->
  row_ops y (LList segments) !! k
  = Some (Text (PADDING_X + pen_after (take k segments), y) text color (font font_setup))
  /\ length (row_ops y (LList segments)) = length segments.
Proof.
  intros Hk. unfold row_ops, draw_line. simpl. split.
  - by apply segments_lookup.
  - apply segments_count.
Qed.

(** X2. Rendering a content extended by further lines makes the drawing
    calls of the shorter content first, unchanged, and then only the calls
    of the added lines, placed on the rows that follow. *)
Theorem create_frame_app (lines more : list Line) :
  canvas_ops (create_frame (lines ++ more))
  = canvas_ops (create_frame lines) ++
    mjoin (imap (fun k line =>
                   row_ops (PADDING_Y + Z.of_nat (length lines + k) * LINE_HEIGHT) line)
                more).
Proof.
  rewrite !create_frame_ops. cbn [canvas_ops].
  rewrite imap_app, join_app, app_assoc. reflexivity.
Qed.

Lemma rows_in_canvas (lines : list Line) :
  (length lines <= 30)%nat ->
  Forall row_in_canvas
    (mjoin (imap (fun k line => row_ops (PADDING_Y + Z.of_nat k * LINE_HEIGHT) line) lines)).
Proof.
  intros Hlen. apply Forall_forall. intros op Hop.
  apply list_elem_of_join in Hop as (row & Hop & Hrow).
  apply elem_of_lookup_imap in Hrow as (k & line & -> & Hk).
  apply lookup_lt_Some in Hk.
  pose proof (row_ops_text (PADDING_Y + Z.of_nat k * LINE_HEIGHT) line) as Hall.
  rewrite Forall_forall in Hall. destruct (Hall op Hop) as [Hy _].
  unfold row_in_canvas. rewrite Hy.
  unfold PADDING_Y, LINE_HEIGHT, HEIGHT. lia.
Qed.

Lemma title_bar_in_canvas : Forall row_in_canvas (draw_title_bar []).
Proof.
  rewrite title_bar_ops.
  repeat (constructor; [unfold row_in_canvas, LINE_HEIGHT, HEIGHT; simpl; try done; lia|]).
  constructor.
Qed.

Lemma canvas_rows_fit (lines : list Line) :
  (length lines <= 30)%nat ->
  Forall row_in_canvas (canvas_ops (create_frame lines)).
Proof.
  intros Hlen. rewrite create_frame_ops. cbn [canvas_ops].
  apply Forall_app. split; [apply title_bar_in_canvas|by apply rows_in_canvas].
Qed.

(** X3. A content of at most 30 lines fits the canvas from top to
    bottom: every piece of text, the caption of the title bar included,
    is drawn on a row of [LINE_HEIGHT] pixels that lies between [y = 0]
    and [y = HEIGHT]. *)
Theorem frame_rows_fit (lines : list Line) :
  (length lines <= 30)%nat ->
  Forall row_in_canvas (canvas_ops (create_frame lines)).
Proof.
  intros Hlen. by apply canvas_rows_fit.
Qed.

(** X4. No frame of the generated sequence overflows the canvas: each
    content has at most 30 lines, so all its text rows lie between the top
    and the bottom edge. *)
Theorem generated_frames_fit :
  exists frames : list (Image * Z),
    generate_frames = Some frames
    /\ Forall (fun img => Forall row_in_canvas (canvas_ops img)) (map fst frames).
Proof.
  destruct frame_contents as [contents|] eqn:E;
    [|by destruct frame_contents_runs as (c & Hc & _); congruence].
  exists (map (fun p => (create_frame p.1, p.2)) contents).
  split; [by rewrite generate_frames_contents, E|].
  pose proof line_counts as Hcounts. rewrite E in Hcounts. injection Hcounts as Hcounts.
  assert (Hall : Forall (fun n => (n <= 30)%nat) (map (fun p => length p.1) contents)).
  { rewrite Hcounts. repeat (constructor; [lia|]). constructor. }
  rewrite map_map. simpl. apply Forall_fmap.
  apply Forall_fmap in Hall.
  eapply Forall_impl; [exact Hall|]. intros p Hp. by apply canvas_rows_fit.
Qed.

Lemma transcript_check :
  (fun contents : list (list Line * Z) =>
     bool_decide (StronglySorted prefix (drop 46 (map fst contents)))) <$> frame_contents
  = Some true.
Proof. vm_compute. reflexivity. Qed.

(** X5. From the frame that echoes the command on (the 47th), the
    transcript is append-only: the content of every frame is a prefix of
    the content of every later frame, so a line once shown is never
    changed or removed. *)
Theorem transcript_append_only :
  exists contents : list (list Line * Z),
    frame_contents = Some contents
    /\ generate_frames = Some (map (fun p => (create_frame p.1, p.2)) contents)
    /\ StronglySorted prefix (drop 46 (map fst contents))
    /\ length (drop 46 (map fst contents)) = 21%nat.
Proof.
  destruct frame_contents as [contents|] eqn:E;
    [|by destruct frame_contents_runs as (c & Hc & _); congruence].
  exists contents. split; [done|split; [by rewrite generate_frames_contents, E|]].
  split.
  - pose proof transcript_check as H. rewrite E in H. injection H as H.
    by apply bool_decide_eq_true_1 in H.
  - destruct frame_contents_runs as (c & Hc & Hlen).
    rewrite E in Hc. injection Hc as <-.
    rewrite length_drop, length_map, Hlen. reflexivity.
Qed.

(** ** Further properties of the typing phase *)

(** X6. For any command the typing phase holds each frame for 45, 100 or
    400 ms: 100 ms exactly when the character just typed is a space, and
    400 ms exactly when it is the last character and not a space (a
    trailing space gets 100 ms, since the test for a space comes first). *)
Theorem typing_delays {A : Type} (render : list Line -> A) (cmd : Py.str) :
  exists typed : list (A * Z),
    typing_phase render cmd [] = Some typed
    /\ length typed = length cmd
    /\ forall (k : nat) (fr : A) (d : Z),
         typed !! k = Some (fr, d) ->
         (d = 45 \/ d = 100 \/ d = 400)
         /\ (d = 100 <-> cmd !! k = Some SPACE)
         /\ (d = 400 <-> S k = length cmd /\ cmd !! k <> Some SPACE).
Proof.
  exists (map (fun k => (render (cursor_frame cmd (S k)), delay_after cmd k))
              (seq 0 (length cmd))).
  split; [by rewrite typing_phase_closed|split; [by rewrite length_map, length_seq|]].
  intros k fr d Hk. apply typed_lookup in Hk as [Hlt ->].
  destruct (lookup_lt_is_Some_2 cmd k Hlt) as [c Hc].
  unfold delay_after. rewrite Hc.
  destruct (decide (c = SPACE)) as [->|Hc']; [|destruct (decide (S k = length cmd))];
    (split; [auto|]);
    split; split; intros H;
      first [ done | congruence | destruct H; congruence | split; congruence ].
Qed.

(** X7. The prompt line built for any count of typed characters has three
    segments, the prompt, the visible part and the cursor; the visible
    part is always a prefix of the text, of [min(count, len(text))]
    characters for a count that is not negative, so a count beyond the
    end shows the whole text. *)
Theorem cursor_line_visible (text : Py.str) (typed_so_far : Z) :
  exists visible : Py.str,
    build_cursor_line text typed_so_far
    = [(Py.lit "$ ", PROMPT_COLOR); (visible, TEXT_COLOR); ([0x2588%N], WHITE)]
    /\ visible `prefix_of` text
    /\ (0 <= typed_so_far -> Py.len visible = Z.min typed_so_far (Py.len text))
    /\ (Py.len text <= typed_so_far -> visible = text).
Proof.
  exists (Py.slice_to text typed_so_far).
  split; [reflexivity|]. unfold Py.slice_to, Py.len.
  destruct (decide (0 <= typed_so_far)) as [Hk|Hk].
  - split; [apply prefix_take|split].
    + intros _. rewrite length_take. lia.
    + intros Hlen. apply take_ge. lia.
  - split; [apply prefix_take|split]; intros; lia.
Qed.

(** ** Further properties of saving *)

Lemma main_result (w : World) :
  exists frames : list (Image * Z),
    generate_frames = Some frames
    /\ main w
       = Some (if decide (5 * 1024 * 1024 < file_size (first_save frames))
               then mkWorld (<[OUTPUT_PATH := second_save frames]> (fs w))
                            (stdout w ++ report frames ++
                             [PWarning;
                              POptimizedSize (to_mb (file_size (second_save frames)))])
               else mkWorld (<[OUTPUT_PATH := first_save frames]> (fs w))
                            (stdout w ++ report frames)).
Proof.
  destruct generate_frames_runs as (frame & rest & Hrun).
  exists (frame :: rest). split; [done|].
  unfold main. rewrite Hrun. simpl. rewrite drop_0, getsize_save. simpl.
  change (mkGif (frame.1 :: map fst rest) (frame.2 :: map snd rest) 0 true)
    with (first_save (frame :: rest)).
  destruct (Qlt_le_dec 5 _) as [Hover|Hfit].
  - apply (proj1 (to_mb_over_budget _)) in Hover.
    rewrite decide_True by exact Hover.
    rewrite optimize_gif_runs by done. simpl.
    rewrite insert_insert_eq. unfold report, second_save. simpl.
    repeat rewrite <- app_assoc. reflexivity.
  - rewrite decide_False.
    + unfold report, print, save. simpl. repeat rewrite <- app_assoc. reflexivity.
    + intros Hover. apply Qle_not_lt in Hfit.
      apply Hfit, (proj2 (to_mb_over_budget _)). exact Hover.
Qed.

(** X8. The comparison with the budget is strict.  In a run in which the
    saves are carried out, the request standing for [OUTPUT_PATH] at the
    end of [main] is the one of [optimize_gif], with the re-encoded
    frames, exactly when the size measured after the first save is larger
    than 5 * 1024 * 1024 bytes; for a file of exactly that size or less it
    is the request of the first save.  No test follows the re-encoding,
    whatever size it gives. *)
Theorem main_size_guard (w : World) :
  exists (frames : list (Image * Z)) (w' : World),
    generate_frames = Some frames
    /\ main w = Some w'
    /\ fs w' !! OUTPUT_PATH
       = Some (if decide (5 * 1024 * 1024 < file_size (first_save frames))
               then second_save frames else first_save frames).
Proof.
  destruct (main_result w) as (frames & Hgen & Hmain).
  exists frames. eexists. split; [exact Hgen|split; [exact Hmain|]].
  destruct (decide (5 * 1024 * 1024 < file_size (first_save frames)));
    simpl; apply lookup_insert_eq.
Qed.

(** X9. [main] appends to the console the seven progress lines, in the
    order generating, frame count, saving, path, size of the first save,
    dimensions, frame count; the warning and the size of the re-encoded
    file follow exactly when the first save is over the budget. *)
Theorem main_console (w : World) :
  exists (frames : list (Image * Z)) (w' : World),
    generate_frames = Some frames
    /\ main w = Some w'
    /\ stdout w'
       = stdout w ++
         [ PGenerating; PFramesGenerated (length frames); PSaving;
           PSavedTo OUTPUT_PATH; PSize (to_mb (file_size (first_save frames)));
           PDimensions 800 720; PFrames (length frames) ] ++
         (if decide (5 * 1024 * 1024 < file_size (first_save frames))
          then [PWarning; POptimizedSize (to_mb (file_size (second_save frames)))]
          else []).
Proof.
  destruct (main_result w) as (frames & Hgen & Hmain).
  exists frames. eexists. split; [exact Hgen|split; [exact Hmain|]].
  destruct (decide (5 * 1024 * 1024 < file_size (first_save frames))); reflexivity.
Qed.

(** X10. [main] writes one file only: every path other than
    [OUTPUT_PATH] holds after the run what it held before. *)
Theorem main_other_files (w : World) (path : string) :
  path <> OUTPUT_PATH ->
  exists w' : World, main w = Some w' /\ fs w' !! path = fs w !! path.
Proof.
  intros Hne. destruct (main_result w) as (frames & Hgen & Hmain).
  eexists. split; [exact Hmain|].
  destruct (decide (5 * 1024 * 1024 < file_size (first_save frames)));
    simpl; by rewrite lookup_insert_ne.
Qed.


(** X12. In a run in which the save is carried out, and given at least
    one image, the request [optimize_gif] makes for its path lists as many
    frames as it was given images, each of the pixel size of the image it
    was made from, with the duration list it was given; no request is made
    for any other path, and one line is printed, the size measured for
    that path. *)
Theorem optimize_gif_effect (path : string) (images : list Image) (durations : list Z)
    (w : World) :
  images <> [] ->
  exists (w' : World) (g : GifFile),
    optimize_gif path images durations w = Some w'
    /\ fs w' !! path = Some g
    /\ length (gif_frames g) = length images
    /\ Forall2 (fun img img' => image_size img' = image_size img) images (gif_frames g)
    /\ gif_duration g = durations
    /\ (forall other : string, other <> path -> fs w' !! other = fs w !! other)
    /\ stdout w' = stdout w ++ [POptimizedSize (to_mb (file_size g))].
Proof.
  intros Hne. rewrite (optimize_gif_runs _ _ _ _ Hne).
  eexists.
  exists (mkGif (map (fun img => Converted RGB (Quantized 64 MEDIANCUT img)) images)
                durations 0 true).
  split; [reflexivity|]. simpl.
  split; [apply lookup_insert_eq|].
  split; [by rewrite length_map|].
  split; [|split; [done|split; [|done]]].
  - apply Forall2_fmap_r, Forall_Forall2_diag, Forall_forall. done.
  - intros other Hother. by rewrite lookup_insert_ne.
Qed.

(** X13. Every frame starts with the six calls of the title bar, the same
    for every content, and all that follows is the text of the content,
    drawn strictly below the bottom border of the title bar. *)
Theorem content_below_title_bar (lines : list Line) :
  take 6 (canvas_ops (create_frame lines)) = draw_title_bar []
  /\ Forall (fun op => exists y, text_row op = Some y /\ TITLE_BAR_H < y)
            (drop 6 (canvas_ops (create_frame lines))).
Proof.
  rewrite create_frame_ops. cbn [canvas_ops].
  assert (Hlen : length (draw_title_bar []) = 6%nat) by reflexivity.
  split.
  - rewrite take_app_le by lia. apply take_ge. lia.
  - rewrite drop_app_length'; [|done].
    apply Forall_forall. intros op Hop.
    apply list_elem_of_join in Hop as (row & Hop & Hrow).
    apply elem_of_lookup_imap in Hrow as (k & line & -> & _).
    pose proof (row_ops_text (PADDING_Y + Z.of_nat k * LINE_HEIGHT) line) as Hall.
    rewrite Forall_forall in Hall. destruct (Hall op Hop) as [Hy _].
    eexists. split; [exact Hy|].
    unfold PADDING_Y, LINE_HEIGHT, TITLE_BAR_H. lia.
Qed.

End Program.

(** * Instances

    The theorems above that carry a premise, applied to a concrete
    environment: no font file can be opened, text is measured at 9 pixels
    per code point, and the encoder writes 100000 bytes per frame, so that
    the first save of the 67 frames exceeds the 5 MiB budget. *)

(** With the font file present the three names are bound to Menlo at
    sizes 15, 15 and 12. *)
Example font_setup_present :
  font_setup truetype_present
  = mkFonts (FreeTypeFont MENLO 15) (FreeTypeFont MENLO 15) (FreeTypeFont MENLO 12).
Proof. reflexivity. Qed.

(** Typing the two characters of [ls]: one frame per prefix, the second
    one held for the final pause. *)
Example typing_ls :
  typing_phase (fun lines => lines) (Py.lit "ls") []
  = Some [ (cursor_frame (Py.lit "ls") 1, 45); (cursor_frame (Py.lit "ls") 2, 400) ].
Proof. reflexivity. Qed.

(** The test for a space comes before the test for the last character:
    a command that ends in a space gets 100 ms on its last keystroke. *)
Example typing_trailing_space :
  map snd <$> typing_phase (fun lines => lines) (Py.lit "ls ") []
  = Some [45; 45; 100].
Proof. reflexivity. Qed.

(** A plain string, an empty segment list, another value and two
    segments, measured at 9 pixels per code point. *)
Example create_frame_rows :
  create_frame truetype_missing getbbox_mono
    [LStr (Py.lit "ab"); LList []; LOther; LList [(Py.lit "$ ", PROMPT_COLOR); (Py.lit "x", WHITE)]]
  = Canvas RGB (800, 720) BG_COLOR
      [ Rectangle (0, 0, 800, 38) (40, 42, 54);
        DrawLine (0, 38, 800, 38) BORDER_COLOR 1;
        Ellipse (14, 13, 26, 25) (255, 95, 86);
        Ellipse (36, 13, 48, 25) (255, 189, 46);
        Ellipse (58, 13, 70, 25) (39, 201, 63);
        Text (330, 11) title DIM_COLOR DefaultFont;
        Text (24, 50) (Py.lit "ab") TEXT_COLOR DefaultFont;
        Text (24, 116) (Py.lit "$ ") PROMPT_COLOR DefaultFont;
        Text (42, 116) (Py.lit "x") WHITE DefaultFont ].
Proof. reflexivity. Qed.

Lemma font_fallback_witness :
  (truetype_missing MENLO FONT_SIZE = None \/ truetype_missing MENLO 12 = None)
  /\ font_setup truetype_missing = mkFonts DefaultFont DefaultFont DefaultFont
  /\ forall lines : list Line,
       exists ops : list DrawOp,
         create_frame truetype_missing getbbox_mono lines
         = Canvas RGB (WIDTH, HEIGHT) BG_COLOR ops
         /\ Forall (fun op => text_font op = None \/ text_font op = Some DefaultFont) ops.
Proof.
  split; [left; reflexivity|].
  apply (font_fallback truetype_missing getbbox_mono). left. reflexivity.
Defined.

Lemma typing_timing_policy_witness :
  exists typed : list (list Line * Z),
    typing_phase (fun lines => lines) command [] = Some typed
    /\ typed !! 3%nat = Some (cursor_frame command 4, 100)
    /\ command !! 3%nat = Some SPACE
    /\ 45 <= 100
    /\ last typed = Some (cursor_frame command 40, 400)
    /\ 100 < 400.
Proof.
  destruct (typing_timing_policy (fun lines : list Line => lines))
    as (typed & Hrun & Hspace & Hfinal).
  exists typed.
  assert (H3 : typed !! 3%nat = Some (cursor_frame command 4, 100)).
  { rewrite typing_phase_closed in Hrun. injection Hrun as <-. reflexivity. }
  assert (Hlast : last typed = Some (cursor_frame command 40, 400)).
  { rewrite typing_phase_closed in Hrun. injection Hrun as <-. reflexivity. }
  assert (Hlen : length typed = 40%nat).
  { rewrite typing_phase_closed in Hrun. injection Hrun as <-. reflexivity. }
  split; [exact Hrun|split; [exact H3|split; [reflexivity|split; [|split; [exact Hlast|]]]]].
  - apply (Hspace 3%nat (cursor_frame command 4) 100 H3). reflexivity.
  - apply (Hfinal 3%nat (cursor_frame command 4) (cursor_frame command 40) 100 400 H3);
      [rewrite Hlen; lia|exact Hlast].
Defined.

Lemma reencoding_step_witness :
  [create_frame truetype_missing getbbox_mono []] <> []
  /\ (exists w',
        optimize_gif file_size_per_frame "demo-cli.gif"
          [create_frame truetype_missing getbbox_mono []] [3000] (mkWorld ∅ []) = Some w'
        /\ fs w' = <["demo-cli.gif" :=
                       mkGif [Converted RGB (Quantized 64 MEDIANCUT
                                (create_frame truetype_missing getbbox_mono []))]
                             [3000] 0 true]> ∅)
  /\ (exists w',
        main truetype_missing getbbox_mono "demo-cli.gif" file_size_per_frame (mkWorld ∅ [])
        = Some w'
        /\ exists g, fs w' !! "demo-cli.gif" = Some g /\ gif_loop g = 0
                     /\ length (gif_frames g) = 67%nat).
Proof.
  assert (Hne : [create_frame truetype_missing getbbox_mono []] <> []) by discriminate.
  destruct (reencoding_step truetype_missing getbbox_mono "demo-cli.gif" file_size_per_frame
              "demo-cli.gif" [create_frame truetype_missing getbbox_mono []] [3000]
              (mkWorld ∅ []) Hne)
    as [Hopt (frames & Hgen & Hmain)].
  split; [exact Hne|split; [exact Hopt|]].
  pose proof (generate_frames_length _ _ _ Hgen) as Hlen.
  destruct Hmain as (w' & Hrun & Hfs).
  { unfold file_size_per_frame. simpl. rewrite length_map, Hlen. lia. }
  exists w'. split; [exact Hrun|].
  eexists. split; [rewrite Hfs; apply lookup_insert_eq|].
  split; [reflexivity|]. simpl. by rewrite !length_map.
Defined.

(** A content of 31 lines does not fit any more: its last row starts at
    [y = 710] and would end at 732. *)
Example thirty_one_lines_overflow :
  last (canvas_ops (create_frame truetype_missing getbbox_mono
                      (replicate 31 (LStr (Py.lit "x")))))
  = Some (Text (24, 710) (Py.lit "x") TEXT_COLOR DefaultFont).
Proof. reflexivity. Qed.

Lemma segment_positions_witness :
  [(Py.lit "$ ", PROMPT_COLOR); (Py.lit "ls", TEXT_COLOR); ([0x2588%N], WHITE)] !! 2%nat
  = Some ([0x2588%N], WHITE)
  /\ row_ops truetype_missing getbbox_mono 50
       (LList [(Py.lit "$ ", PROMPT_COLOR); (Py.lit "ls", TEXT_COLOR); ([0x2588%N], WHITE)])
     !! 2%nat
     = Some (Text (60, 50) [0x2588%N] WHITE DefaultFont).
Proof.
  split; [reflexivity|].
  apply (segment_positions truetype_missing getbbox_mono 50
           [(Py.lit "$ ", PROMPT_COLOR); (Py.lit "ls", TEXT_COLOR); ([0x2588%N], WHITE)]
           2 [0x2588%N] WHITE).
  reflexivity.
Defined.

Lemma frame_rows_fit_witness :
  (length (replicate 30 (LStr (Py.lit "x"))) <= 30)%nat
  /\ Forall row_in_canvas
       (canvas_ops (create_frame truetype_missing getbbox_mono
                      (replicate 30 (LStr (Py.lit "x"))))).
Proof.
  assert (H : (length (replicate 30 (LStr (Py.lit "x"))) <= 30)%nat)
    by (rewrite length_replicate; lia).
  split; [exact H|].
  apply (frame_rows_fit truetype_missing getbbox_mono _ H).
Defined.

Lemma main_other_files_witness :
  "notes.txt" <> "demo-cli.gif"
  /\ exists w' : World,
       main truetype_missing getbbox_mono "demo-cli.gif" file_size_per_frame
         (mkWorld {["notes.txt" := mkGif [] [] 0 false]} []) = Some w'
       /\ fs w' !! "notes.txt" = Some (mkGif [] [] 0 false).
Proof.
  assert (H : "notes.txt" <> "demo-cli.gif") by discriminate.
  split; [exact H|].
  destruct (main_other_files truetype_missing getbbox_mono "demo-cli.gif" file_size_per_frame
              (mkWorld {["notes.txt" := mkGif [] [] 0 false]} []) "notes.txt" H)
    as (w' & Hrun & Hfs).
  exists w'. split; [exact Hrun|]. rewrite Hfs. simpl. apply lookup_singleton_eq.
Defined.

Lemma optimize_gif_effect_witness :
  [create_frame truetype_missing getbbox_mono [];
   create_frame truetype_missing getbbox_mono [LStr (Py.lit "x")]] <> []
  /\ exists (w' : World) (g : GifFile),
       optimize_gif file_size_per_frame "demo-cli.gif"
         [create_frame truetype_missing getbbox_mono [];
          create_frame truetype_missing getbbox_mono [LStr (Py.lit "x")]]
         [400; 300] (mkWorld ∅ []) = Some w'
       /\ fs w' !! "demo-cli.gif" = Some g
       /\ length (gif_frames g) = 2%nat
       /\ gif_duration g = [400; 300].
Proof.
  assert (H : [create_frame truetype_missing getbbox_mono [];
               create_frame truetype_missing getbbox_mono [LStr (Py.lit "x")]] <> [])
    by discriminate.
  split; [exact H|].
  destruct (optimize_gif_effect file_size_per_frame "demo-cli.gif" _ [400; 300]
              (mkWorld ∅ []) H)
    as (w' & g & Hrun & Hfs & Hlen & _ & Hdur & _).
  exists w', g. done.
Defined.
